(** * getproblem.py: one POST to the judge's getProblem endpoint

    The script builds a constant payload, serialises it with [json.dumps],
    posts it once with [requests.post], and prints either the decoded
    response or one of two error messages.

    The script is embedded as a term of a small command monad [io] whose
    commands are the two effects it has (one library call that talks to the
    network, and [print]); Python exceptions are the monad's failures and
    [try]/[except] is a handler table searched in order.  The world the
    script runs in (server, network, the [requests] library) answers the
    network command; theorems quantify over every such world.  Module
    [Wire] looks inside one call: the HTTP requests the library sends for
    it, with its redirects and its timeout. *)

From Stdlib Require Import String Ascii List ZArith Bool Lia DecimalString.
From ExtLib Require Import Structures.Monad Structures.MonadExc.
Import ListNotations.
Import MonadNotation.
Local Open Scope string_scope.
Local Open Scope monad_scope.

(** ** Text helpers *)

Module Text.

Definition dquote : string := String (ascii_of_nat 34) EmptyString.
Definition backslash : string := String (ascii_of_nat 92) EmptyString.

Fixpoint join (sep : string) (l : list string) : string :=
  match l with
  | [] => ""
  | [x] => x
  | x :: rest => x ++ sep ++ join sep rest
  end.





Definition has_char (c : ascii) (s : string) : bool :=
  existsb (Ascii.eqb c) (list_ascii_of_string s).

Definition hex_digit (n : N) : ascii :=
  if (n <? 10)%N then ascii_of_N (48 + n) else ascii_of_N (87 + n).

(** Lower-case hexadecimal, [w] digits, most significant first. *)
Fixpoint hex (w : nat) (n : N) : string :=
  match w with
  | O => ""
  | S w' => hex w' (n / 16) ++ String (hex_digit (n mod 16)) ""
  end.

Definition of_Z (z : Z) : string := NilZero.string_of_int (Z.to_int z).

(** A Python [str] is held as its UTF-8 bytes.  CPython strings can
    also hold lone surrogates (code points D800 to DFFF, which
    [json.loads] produces from an unpaired escape); those are held in
    the same three-byte form, which no UTF-8 text contains. *)

(** Bytes to code points (well-formed input). *)
Fixpoint code_points (l : list N) : list N :=
  match l with
  | [] => []
  | b :: rest =>
      if (b <? 128)%N then b :: code_points rest
      else if (b <? 224)%N then
        match rest with
        | c1 :: r => ((b mod 32) * 64 + c1 mod 64)%N :: code_points r
        | [] => [b]
        end
      else if (b <? 240)%N then
        match rest with
        | c1 :: c2 :: r =>
            ((b mod 16) * 4096 + (c1 mod 64) * 64 + c2 mod 64)%N
              :: code_points r
        | _ => [b]
        end
      else
        match rest with
        | c1 :: c2 :: c3 :: r =>
            ((b mod 8) * 262144 + (c1 mod 64) * 4096 + (c2 mod 64) * 64
             + c3 mod 64)%N :: code_points r
        | _ => [b]
        end
  end.

(** A code point to its UTF-8 bytes. *)
Definition utf8 (n : N) : string :=
  let byte (k : N) := String (ascii_of_N k) "" in
  (if n <? 128 then byte n
   else if n <? 2048 then byte (192 + n / 64) ++ byte (128 + n mod 64)
   else if n <? 65536 then
     byte (224 + n / 4096) ++ byte (128 + (n / 64) mod 64)
       ++ byte (128 + n mod 64)
   else
     byte (240 + n / 262144) ++ byte (128 + (n / 4096) mod 64)
       ++ byte (128 + (n / 64) mod 64) ++ byte (128 + n mod 64))%N.

Definition is_surrogate (n : N) : bool := ((55296 <=? n) && (n <=? 57343))%N.

(** Can the text be written to a UTF-8 stream?  Everything can but a
    lone surrogate, whose bytes are ED followed by A0 to BF. *)
Fixpoint encodable (s : string) : bool :=
  match s with
  | EmptyString => true
  | String c rest =>
      match rest with
      | String d _ =>
          negb ((N_of_ascii c =? 237)%N && (160 <=? N_of_ascii d)%N)
          && encodable rest
      | EmptyString => true
      end
  end.

Definition lower (c : ascii) : ascii :=
  let n := N_of_ascii c in
  if ((65 <=? n) && (n <=? 90))%N then ascii_of_N (n + 32) else c.

(** Equality of header names, which ignores case. *)
Fixpoint same_name (a b : string) : bool :=
  match a, b with
  | EmptyString, EmptyString => true
  | String x a', String y b' => Ascii.eqb (lower x) (lower y) && same_name a' b'
  | _, _ => false
  end.


End Text.

(** ** Python values

    The values that [json.loads] can return and that the payload is made
    of.  Dictionaries keep insertion order, as CPython's do, and their
    keys here are strings.  A float is carried by the text CPython prints
    for it ([repr]); float arithmetic is not modelled. *)

Module Py.

#[warnings="-register-all"]
Inductive pyval : Type :=
| PyNone
| PyBool (b : bool)
| PyInt (z : Z)
| PyFloat (shown : string)
| PyStr (s : string)
| PyList (l : list pyval)
| PyDict (d : list (string * pyval)).

(** [d[k] = v]: replaces the value in place when the key is present,
    appends otherwise. *)
Fixpoint dict_set (k : string) (v : pyval) (d : list (string * pyval))
  : list (string * pyval) :=
  match d with
  | [] => [(k, v)]
  | (k', v') :: rest =>
      if String.eqb k k' then (k', v) :: rest
      else (k', v') :: dict_set k v rest
  end.

Fixpoint dict_get (k : string) (d : list (string * pyval)) : option pyval :=
  match d with
  | [] => None
  | (k', v) :: rest => if String.eqb k k' then Some v else dict_get k rest
  end.

Definition keys (d : list (string * pyval)) : list string := map fst d.

(** The code points from 128 up that [str.isprintable] rejects, as
    inclusive ranges: the categories Cc, Cf, Cs, Co, Cn, Zl, Zp and Zs of
    the Unicode database of CPython 3.11 (Unicode 14.0). *)
Definition nonprintable_ranges : list (N * N) :=
  [(128, 160); (173, 173); (888, 889); (896, 899); (907, 907); (909, 909);
     (930, 930); (1328, 1328); (1367, 1368); (1419, 1420); (1424, 1424);
     (1480, 1487); (1515, 1518); (1525, 1541); (1564, 1564); (1757, 1757);
     (1806, 1807); (1867, 1868); (1970, 1983); (2043, 2044); (2094, 2095);
     (2111, 2111); (2140, 2141); (2143, 2143); (2155, 2159); (2191, 2199);
     (2274, 2274); (2436, 2436); (2445, 2446); (2449, 2450); (2473, 2473);
     (2481, 2481); (2483, 2485); (2490, 2491); (2501, 2502); (2505, 2506);
     (2511, 2518); (2520, 2523); (2526, 2526); (2532, 2533); (2559, 2560);
     (2564, 2564); (2571, 2574); (2577, 2578); (2601, 2601); (2609, 2609);
     (2612, 2612); (2615, 2615); (2618, 2619); (2621, 2621); (2627, 2630);
     (2633, 2634); (2638, 2640); (2642, 2648); (2653, 2653); (2655, 2661);
     (2679, 2688); (2692, 2692); (2702, 2702); (2706, 2706); (2729, 2729);
     (2737, 2737); (2740, 2740); (2746, 2747); (2758, 2758); (2762, 2762);
     (2766, 2767); (2769, 2783); (2788, 2789); (2802, 2808); (2816, 2816);
     (2820, 2820); (2829, 2830); (2833, 2834); (2857, 2857); (2865, 2865);
     (2868, 2868); (2874, 2875); (2885, 2886); (2889, 2890); (2894, 2900);
     (2904, 2907); (2910, 2910); (2916, 2917); (2936, 2945); (2948, 2948);
     (2955, 2957); (2961, 2961); (2966, 2968); (2971, 2971); (2973, 2973);
     (2976, 2978); (2981, 2983); (2987, 2989); (3002, 3005); (3011, 3013);
     (3017, 3017); (3022, 3023); (3025, 3030); (3032, 3045); (3067, 3071);
     (3085, 3085); (3089, 3089); (3113, 3113); (3130, 3131); (3141, 3141);
     (3145, 3145); (3150, 3156); (3159, 3159); (3163, 3164); (3166, 3167);
     (3172, 3173); (3184, 3190); (3213, 3213); (3217, 3217); (3241, 3241);
     (3252, 3252); (3258, 3259); (3269, 3269); (3273, 3273); (3278, 3284);
     (3287, 3292); (3295, 3295); (3300, 3301); (3312, 3312); (3315, 3327);
     (3341, 3341); (3345, 3345); (3397, 3397); (3401, 3401); (3408, 3411);
     (3428, 3429); (3456, 3456); (3460, 3460); (3479, 3481); (3506, 3506);
     (3516, 3516); (3518, 3519); (3527, 3529); (3531, 3534); (3541, 3541);
     (3543, 3543); (3552, 3557); (3568, 3569); (3573, 3584); (3643, 3646);
     (3676, 3712); (3715, 3715); (3717, 3717); (3723, 3723); (3748, 3748);
     (3750, 3750); (3774, 3775); (3781, 3781); (3783, 3783); (3790, 3791);
     (3802, 3803); (3808, 3839); (3912, 3912); (3949, 3952); (3992, 3992);
     (4029, 4029); (4045, 4045); (4059, 4095); (4294, 4294); (4296, 4300);
     (4302, 4303); (4681, 4681); (4686, 4687); (4695, 4695); (4697, 4697);
     (4702, 4703); (4745, 4745); (4750, 4751); (4785, 4785); (4790, 4791);
     (4799, 4799); (4801, 4801); (4806, 4807); (4823, 4823); (4881, 4881);
     (4886, 4887); (4955, 4956); (4989, 4991); (5018, 5023); (5110, 5111);
     (5118, 5119); (5760, 5760); (5789, 5791); (5881, 5887); (5910, 5918);
     (5943, 5951); (5972, 5983); (5997, 5997); (6001, 6001); (6004, 6015);
     (6110, 6111); (6122, 6127); (6138, 6143); (6158, 6158); (6170, 6175);
     (6265, 6271); (6315, 6319); (6390, 6399); (6431, 6431); (6444, 6447);
     (6460, 6463); (6465, 6467); (6510, 6511); (6517, 6527); (6572, 6575);
     (6602, 6607); (6619, 6621); (6684, 6685); (6751, 6751); (6781, 6782);
     (6794, 6799); (6810, 6815); (6830, 6831); (6863, 6911); (6989, 6991);
     (7039, 7039); (7156, 7163); (7224, 7226); (7242, 7244); (7305, 7311);
     (7355, 7356); (7368, 7375); (7419, 7423); (7958, 7959); (7966, 7967);
     (8006, 8007); (8014, 8015); (8024, 8024); (8026, 8026); (8028, 8028);
     (8030, 8030); (8062, 8063); (8117, 8117); (8133, 8133); (8148, 8149);
     (8156, 8156); (8176, 8177); (8181, 8181); (8191, 8207); (8232, 8239);
     (8287, 8303); (8306, 8307); (8335, 8335); (8349, 8351); (8385, 8399);
     (8433, 8447); (8588, 8591); (9255, 9279); (9291, 9311); (11124, 11125);
     (11158, 11158); (11508, 11512); (11558, 11558); (11560, 11564);
     (11566, 11567); (11624, 11630); (11633, 11646); (11671, 11679);
     (11687, 11687); (11695, 11695); (11703, 11703); (11711, 11711);
     (11719, 11719); (11727, 11727); (11735, 11735); (11743, 11743);
     (11870, 11903); (11930, 11930); (12020, 12031); (12246, 12271);
     (12284, 12288); (12352, 12352); (12439, 12440); (12544, 12548);
     (12592, 12592); (12687, 12687); (12772, 12783); (12831, 12831);
     (42125, 42127); (42183, 42191); (42540, 42559); (42744, 42751);
     (42955, 42959); (42962, 42962); (42964, 42964); (42970, 42993);
     (43053, 43055); (43066, 43071); (43128, 43135); (43206, 43213);
     (43226, 43231); (43348, 43358); (43389, 43391); (43470, 43470);
     (43482, 43485); (43519, 43519); (43575, 43583); (43598, 43599);
     (43610, 43611); (43715, 43738); (43767, 43776); (43783, 43784);
     (43791, 43792); (43799, 43807); (43815, 43815); (43823, 43823);
     (43884, 43887); (44014, 44015); (44026, 44031); (55204, 55215);
     (55239, 55242); (55292, 63743); (64110, 64111); (64218, 64255);
     (64263, 64274); (64280, 64284); (64311, 64311); (64317, 64317);
     (64319, 64319); (64322, 64322); (64325, 64325); (64451, 64466);
     (64912, 64913); (64968, 64974); (64976, 65007); (65050, 65055);
     (65107, 65107); (65127, 65127); (65132, 65135); (65141, 65141);
     (65277, 65280); (65471, 65473); (65480, 65481); (65488, 65489);
     (65496, 65497); (65501, 65503); (65511, 65511); (65519, 65531);
     (65534, 65535); (65548, 65548); (65575, 65575); (65595, 65595);
     (65598, 65598); (65614, 65615); (65630, 65663); (65787, 65791);
     (65795, 65798); (65844, 65846); (65935, 65935); (65949, 65951);
     (65953, 65999); (66046, 66175); (66205, 66207); (66257, 66271);
     (66300, 66303); (66340, 66348); (66379, 66383); (66427, 66431);
     (66462, 66462); (66500, 66503); (66518, 66559); (66718, 66719);
     (66730, 66735); (66772, 66775); (66812, 66815); (66856, 66863);
     (66916, 66926); (66939, 66939); (66955, 66955); (66963, 66963);
     (66966, 66966); (66978, 66978); (66994, 66994); (67002, 67002);
     (67005, 67071); (67383, 67391); (67414, 67423); (67432, 67455);
     (67462, 67462); (67505, 67505); (67515, 67583); (67590, 67591);
     (67593, 67593); (67638, 67638); (67641, 67643); (67645, 67646);
     (67670, 67670); (67743, 67750); (67760, 67807); (67827, 67827);
     (67830, 67834); (67868, 67870); (67898, 67902); (67904, 67967);
     (68024, 68027); (68048, 68049); (68100, 68100); (68103, 68107);
     (68116, 68116); (68120, 68120); (68150, 68151); (68155, 68158);
     (68169, 68175); (68185, 68191); (68256, 68287); (68327, 68330);
     (68343, 68351); (68406, 68408); (68438, 68439); (68467, 68471);
     (68498, 68504); (68509, 68520); (68528, 68607); (68681, 68735);
     (68787, 68799); (68851, 68857); (68904, 68911); (68922, 69215);
     (69247, 69247); (69290, 69290); (69294, 69295); (69298, 69375);
     (69416, 69423); (69466, 69487); (69514, 69551); (69580, 69599);
     (69623, 69631); (69710, 69713); (69750, 69758); (69821, 69821);
     (69827, 69839); (69865, 69871); (69882, 69887); (69941, 69941);
     (69960, 69967); (70007, 70015); (70112, 70112); (70133, 70143);
     (70162, 70162); (70207, 70271); (70279, 70279); (70281, 70281);
     (70286, 70286); (70302, 70302); (70314, 70319); (70379, 70383);
     (70394, 70399); (70404, 70404); (70413, 70414); (70417, 70418);
     (70441, 70441); (70449, 70449); (70452, 70452); (70458, 70458);
     (70469, 70470); (70473, 70474); (70478, 70479); (70481, 70486);
     (70488, 70492); (70500, 70501); (70509, 70511); (70517, 70655);
     (70748, 70748); (70754, 70783); (70856, 70863); (70874, 71039);
     (71094, 71095); (71134, 71167); (71237, 71247); (71258, 71263);
     (71277, 71295); (71354, 71359); (71370, 71423); (71451, 71452);
     (71468, 71471); (71495, 71679); (71740, 71839); (71923, 71934);
     (71943, 71944); (71946, 71947); (71956, 71956); (71959, 71959);
     (71990, 71990); (71993, 71994); (72007, 72015); (72026, 72095);
     (72104, 72105); (72152, 72153); (72165, 72191); (72264, 72271);
     (72355, 72367); (72441, 72703); (72713, 72713); (72759, 72759);
     (72774, 72783); (72813, 72815); (72848, 72849); (72872, 72872);
     (72887, 72959); (72967, 72967); (72970, 72970); (73015, 73017);
     (73019, 73019); (73022, 73022); (73032, 73039); (73050, 73055);
     (73062, 73062); (73065, 73065); (73103, 73103); (73106, 73106);
     (73113, 73119); (73130, 73439); (73465, 73647); (73649, 73663);
     (73714, 73726); (74650, 74751); (74863, 74863); (74869, 74879);
     (75076, 77711); (77811, 77823); (78895, 82943); (83527, 92159);
     (92729, 92735); (92767, 92767); (92778, 92781); (92863, 92863);
     (92874, 92879); (92910, 92911); (92918, 92927); (92998, 93007);
     (93018, 93018); (93026, 93026); (93048, 93052); (93072, 93759);
     (93851, 93951); (94027, 94030); (94088, 94094); (94112, 94175);
     (94181, 94191); (94194, 94207); (100344, 100351); (101590, 101631);
     (101641, 110575); (110580, 110580); (110588, 110588); (110591, 110591);
     (110883, 110927); (110931, 110947); (110952, 110959); (111356, 113663);
     (113771, 113775); (113789, 113791); (113801, 113807); (113818, 113819);
     (113824, 118527); (118574, 118575); (118599, 118607); (118724, 118783);
     (119030, 119039); (119079, 119080); (119155, 119162); (119275, 119295);
     (119366, 119519); (119540, 119551); (119639, 119647); (119673, 119807);
     (119893, 119893); (119965, 119965); (119968, 119969); (119971, 119972);
     (119975, 119976); (119981, 119981); (119994, 119994); (119996, 119996);
     (120004, 120004); (120070, 120070); (120075, 120076); (120085, 120085);
     (120093, 120093); (120122, 120122); (120127, 120127); (120133, 120133);
     (120135, 120137); (120145, 120145); (120486, 120487); (120780, 120781);
     (121484, 121498); (121504, 121504); (121520, 122623); (122655, 122879);
     (122887, 122887); (122905, 122906); (122914, 122914); (122917, 122917);
     (122923, 123135); (123181, 123183); (123198, 123199); (123210, 123213);
     (123216, 123535); (123567, 123583); (123642, 123646); (123648, 124895);
     (124903, 124903); (124908, 124908); (124911, 124911); (124927, 124927);
     (125125, 125126); (125143, 125183); (125260, 125263); (125274, 125277);
     (125280, 126064); (126133, 126208); (126270, 126463); (126468, 126468);
     (126496, 126496); (126499, 126499); (126501, 126502); (126504, 126504);
     (126515, 126515); (126520, 126520); (126522, 126522); (126524, 126529);
     (126531, 126534); (126536, 126536); (126538, 126538); (126540, 126540);
     (126544, 126544); (126547, 126547); (126549, 126550); (126552, 126552);
     (126554, 126554); (126556, 126556); (126558, 126558); (126560, 126560);
     (126563, 126563); (126565, 126566); (126571, 126571); (126579, 126579);
     (126584, 126584); (126589, 126589); (126591, 126591); (126602, 126602);
     (126620, 126624); (126628, 126628); (126634, 126634); (126652, 126703);
     (126706, 126975); (127020, 127023); (127124, 127135); (127151, 127152);
     (127168, 127168); (127184, 127184); (127222, 127231); (127406, 127461);
     (127491, 127503); (127548, 127551); (127561, 127567); (127570, 127583);
     (127590, 127743); (128728, 128732); (128749, 128751); (128765, 128767);
     (128884, 128895); (128985, 128991); (129004, 129007); (129009, 129023);
     (129036, 129039); (129096, 129103); (129114, 129119); (129160, 129167);
     (129198, 129199); (129202, 129279); (129620, 129631); (129646, 129647);
     (129653, 129655); (129661, 129663); (129671, 129679); (129709, 129711);
     (129723, 129727); (129734, 129743); (129754, 129759); (129768, 129775);
     (129783, 129791); (129939, 129939); (129995, 130031); (130042, 131071);
     (173792, 173823); (177977, 177983); (178206, 178207); (183970, 183983);
     (191457, 194559); (195102, 196607); (201547, 917759); (918000, 1114111)]%N.

Definition printable (cp : N) : bool :=
  negb (existsb (fun r => (fst r <=? cp)%N && (cp <=? snd r)%N)
                nonprintable_ranges).

(** One character of [repr] of a [str] quoted with [q].  CPython escapes
    the quote, the backslash, tab, newline, carriage return; writes the
    other control characters and DEL as [\xhh]; copies the rest of
    ASCII and the printable characters above it; and writes a
    non-printable character above ASCII as [\xhh], [\uhhhh] or
    [\Uhhhhhhhh] by its size. *)
Definition repr_char (q : N) (cp : N) : string :=
  if (cp =? q)%N || (cp =? 92)%N
  then Text.backslash ++ String (ascii_of_N cp) ""
  else if (cp =? 9)%N then Text.backslash ++ "t"
  else if (cp =? 10)%N then Text.backslash ++ "n"
  else if (cp =? 13)%N then Text.backslash ++ "r"
  else if (cp <? 32)%N || (cp =? 127)%N
  then Text.backslash ++ "x" ++ Text.hex 2 cp
  else if (cp <? 127)%N then String (ascii_of_N cp) ""
  else if printable cp then Text.utf8 cp
  else if (cp <? 256)%N then Text.backslash ++ "x" ++ Text.hex 2 cp
  else if (cp <? 65536)%N then Text.backslash ++ "u" ++ Text.hex 4 cp
  else Text.backslash ++ "U" ++ Text.hex 8 cp.

(** [repr] of a [str]: single quotes, unless the text has a single quote
    and no double quote. *)
Definition repr_str (s : string) : string :=
  let q := if Text.has_char (ascii_of_nat 39) s
              && negb (Text.has_char (ascii_of_nat 34) s)
           then 34%N else 39%N in
  String (ascii_of_N q) ""
    ++ String.concat ""
         (map (repr_char q)
              (Text.code_points (map N_of_ascii (list_ascii_of_string s))))
    ++ String (ascii_of_N q) "".

Fixpoint repr (v : pyval) : string :=
  match v with
  | PyNone => "None"
  | PyBool true => "True"
  | PyBool false => "False"
  | PyInt z => Text.of_Z z
  | PyFloat shown => shown
  | PyStr s => repr_str s
  | PyList l => "[" ++ Text.join ", " (map repr l) ++ "]"
  | PyDict d =>
      "{" ++ Text.join ", "
               (map (fun kv => match kv with
                               | (k, x) => repr_str k ++ ": " ++ repr x
                               end) d) ++ "}"
  end.

(** [str(v)], which is what [print] writes: the text itself for a
    [str], [repr] for the other values. *)
Definition str (v : pyval) : string :=
  match v with
  | PyStr s => s
  | _ => repr v
  end.

End Py.

(** ** The [json] module

    [dumps] is [json.dumps] with its default arguments (separators [", "]
    and [": "], [ensure_ascii=True], insertion order kept).  [loads] is
    the decoder on the fragment described at its definition.  Python
    strings are held as UTF-8 text. *)

Module Json.
Import Py.

(** [py_encode_basestring_ascii]: what is not between space and tilde,
    and the quote and the backslash, is escaped. *)
Definition escape_code_point (n : N) : string :=
  if (n =? 34)%N then Text.backslash ++ Text.dquote
  else if (n =? 92)%N then Text.backslash ++ Text.backslash
  else if (n =? 8)%N then Text.backslash ++ "b"
  else if (n =? 12)%N then Text.backslash ++ "f"
  else if (n =? 10)%N then Text.backslash ++ "n"
  else if (n =? 13)%N then Text.backslash ++ "r"
  else if (n =? 9)%N then Text.backslash ++ "t"
  else if (32 <=? n)%N && (n <=? 126)%N then String (ascii_of_N n) ""
  else if (n <? 65536)%N then Text.backslash ++ "u" ++ Text.hex 4 n
  else
    let m := (n - 65536)%N in
    Text.backslash ++ "u" ++ Text.hex 4 (55296 + (m / 1024) mod 1024)%N
      ++ Text.backslash ++ "u" ++ Text.hex 4 (56320 + m mod 1024)%N.

Definition encode_str (s : string) : string :=
  Text.dquote
    ++ String.concat ""
         (map escape_code_point
              (Text.code_points (map N_of_ascii (list_ascii_of_string s))))
    ++ Text.dquote.

Definition encode_float (shown : string) : string :=
  if String.eqb shown "nan" then "NaN"
  else if String.eqb shown "inf" then "Infinity"
  else if String.eqb shown "-inf" then "-Infinity"
  else shown.

Fixpoint dumps (v : pyval) : string :=
  match v with
  | PyNone => "null"
  | PyBool true => "true"
  | PyBool false => "false"
  | PyInt z => Text.of_Z z
  | PyFloat shown => encode_float shown
  | PyStr s => encode_str s
  | PyList l => "[" ++ Text.join ", " (map dumps l) ++ "]"
  | PyDict d =>
      "{" ++ Text.join ", "
               (map (fun kv => match kv with
                               | (k, x) => encode_str k ++ ": " ++ dumps x
                               end) d) ++ "}"
  end.

(** *** Decoding

    [loads] follows CPython's scanner ([scan_once], [scanstring],
    [_match_number], the object and array loops of [json.decoder]) on
    texts whose numbers are integers of at most [max_digits] digits and
    whose nesting is at most [max_depth] deep.  A number with a fraction
    or an exponent is a float, a longer integer is refused by CPython's
    integer conversion and deeper nesting exhausts its recursion limit:
    for those [loads] answers [Unsupported] rather than guess. *)

Inductive scan (A : Type) : Type :=
| Got (a : A) (rest : string)
| Bad
| Beyond.
Arguments Got {A} a rest.
Arguments Bad {A}.
Arguments Beyond {A}.

Inductive decoded : Type :=
| Value (v : pyval)
| Malformed
| Unsupported.

Definition max_digits : nat := 4300.
Definition max_depth : nat := 500.

Definition is_ws (c : ascii) : bool :=
  let n := N_of_ascii c in
  ((n =? 32) || (n =? 9) || (n =? 10) || (n =? 13))%N.

Fixpoint skip_ws (s : string) : string :=
  match s with
  | String c rest => if is_ws c then skip_ws rest else s
  | EmptyString => s
  end.

Definition is_digit (c : ascii) : bool :=
  let n := N_of_ascii c in ((48 <=? n) && (n <=? 57))%N.

Definition hex_value (c : ascii) : option N :=
  let n := N_of_ascii c in
  (if (48 <=? n) && (n <=? 57) then Some (n - 48)
   else if (97 <=? n) && (n <=? 102) then Some (n - 87)
   else if (65 <=? n) && (n <=? 70) then Some (n - 55)
   else None)%N.

Definition hex4 (a b c d : ascii) : option N :=
  match hex_value a, hex_value b, hex_value c, hex_value d with
  | Some x, Some y, Some z, Some w => Some (((x * 16 + y) * 16 + z) * 16 + w)%N
  | _, _, _, _ => None
  end.

Definition is_high (n : N) : bool := ((55296 <=? n) && (n <=? 56319))%N.
Definition is_low (n : N) : bool := ((56320 <=? n) && (n <=? 57343))%N.

(** Text pending from a high surrogate that is waiting for its low half. *)
Definition flush (pending : option N) : string :=
  match pending with
  | Some hi => Text.utf8 hi
  | None => ""
  end.

Definition push (p : string) (r : scan string) : scan string :=
  match r with
  | Got s rest => Got (p ++ s) rest
  | other => other
  end.

(** [scanstring] in strict mode, entered after the opening quote. *)
Fixpoint scan_string (pending : option N) (s : string) : scan string :=
  match s with
  | EmptyString => Bad
  | String c rest =>
      let n := N_of_ascii c in
      if (n =? 34)%N then Got (flush pending) rest
      else if (n <? 32)%N then Bad
      else if (n =? 92)%N then
        match rest with
        | EmptyString => Bad
        | String e rest' =>
            let m := N_of_ascii e in
            let plain (k : N) :=
              push (flush pending ++ String (ascii_of_N k) "")
                   (scan_string None rest') in
            if (m =? 34)%N then plain 34%N
            else if (m =? 92)%N then plain 92%N
            else if (m =? 47)%N then plain 47%N
            else if (m =? 98)%N then plain 8%N
            else if (m =? 102)%N then plain 12%N
            else if (m =? 110)%N then plain 10%N
            else if (m =? 114)%N then plain 13%N
            else if (m =? 116)%N then plain 9%N
            else if (m =? 117)%N then
              match rest' with
              | String h1 (String h2 (String h3 (String h4 rest''))) =>
                  match hex4 h1 h2 h3 h4 with
                  | None => Bad
                  | Some u =>
                      match pending with
                      | Some hi =>
                          if is_low u then
                            push (Text.utf8 (65536 + (hi - 55296) * 1024
                                        + (u - 56320))%N)
                                 (scan_string None rest'')
                          else if is_high u then
                            push (Text.utf8 hi) (scan_string (Some u) rest'')
                          else
                            push (Text.utf8 hi ++ Text.utf8 u) (scan_string None rest'')
                      | None =>
                          if is_high u then scan_string (Some u) rest''
                          else push (Text.utf8 u) (scan_string None rest'')
                      end
                  end
              | _ => Bad
              end
            else Bad
        end
      else push (flush pending ++ String c "") (scan_string None rest)
  end.

Fixpoint take_digits (s : string) : string * string :=
  match s with
  | String c rest =>
      if is_digit c
      then let (ds, r) := take_digits rest in (String c ds, r)
      else ("", s)
  | EmptyString => ("", s)
  end.

Definition digits_value (ds : string) : Z :=
  fold_left (fun acc c => (acc * 10 + (Z.of_N (N_of_ascii c) - 48))%Z)
            (list_ascii_of_string ds) 0%Z.

(** Does a fraction [.d+] or an exponent [[eE][+-]?d+] follow? *)
Definition float_follows (s : string) : bool :=
  match s with
  | String c (String d rest) =>
      let n := N_of_ascii c in
      if (n =? 46)%N then is_digit d
      else if (n =? 101)%N || (n =? 69)%N then
        if is_digit d then true
        else if (N_of_ascii d =? 43)%N || (N_of_ascii d =? 45)%N then
          match rest with
          | String d' _ => is_digit d'
          | EmptyString => false
          end
        else false
      else false
  | _ => false
  end.

(** [_match_number] after an optional sign. *)
Definition scan_number (neg : bool) (s : string) : scan pyval :=
  match s with
  | String c rest =>
      if is_digit c then
        let (ds, r) :=
          if (N_of_ascii c =? 48)%N then (String c "", rest)
          else take_digits s in
        if float_follows r then Beyond
        else if Nat.ltb max_digits (String.length ds) then Beyond
        else Got (PyInt (if neg then - digits_value ds else digits_value ds)%Z) r
      else Bad
  | EmptyString => Bad
  end.

Definition literal (word : string) (v : pyval) (s : string) : scan pyval :=
  if String.prefix word s
  then Got v (substring (String.length word) (String.length s) s)
  else Bad.

(** [scan_once] with the object and array loops.  [fuel] bounds the
    work (each call consumes a character first), [depth] the nesting. *)
Fixpoint scan_value (fuel depth : nat) (s : string) {struct fuel} : scan pyval :=
  match fuel with
  | O => Beyond
  | S fuel' =>
      match s with
      | EmptyString => Bad
      | String c rest =>
          let n := N_of_ascii c in
          if (n =? 34)%N then
            match scan_string None rest with
            | Got t r => Got (PyStr t) r
            | Bad => Bad
            | Beyond => Beyond
            end
          else if (n =? 123)%N then
            match depth with
            | O => Beyond
            | S depth' =>
                match skip_ws rest with
                | String k r =>
                    if (N_of_ascii k =? 125)%N then Got (PyDict []) r
                    else if (N_of_ascii k =? 34)%N
                    then scan_members fuel' depth' r []
                    else Bad
                | EmptyString => Bad
                end
            end
          else if (n =? 91)%N then
            match depth with
            | O => Beyond
            | S depth' =>
                match skip_ws rest with
                | String k r =>
                    if (N_of_ascii k =? 93)%N then Got (PyList []) r
                    else scan_elements fuel' depth' (String k r) []
                | EmptyString => Bad
                end
            end
          else if (n =? 110)%N then literal "null" PyNone s
          else if (n =? 116)%N then literal "true" (PyBool true) s
          else if (n =? 102)%N then literal "false" (PyBool false) s
          else if (n =? 78)%N then literal "NaN" (PyFloat "nan") s
          else if (n =? 73)%N then literal "Infinity" (PyFloat "inf") s
          else if (n =? 45)%N then
            if String.prefix "-Infinity" s
            then literal "-Infinity" (PyFloat "-inf") s
            else scan_number true rest
          else scan_number false s
      end
  end

(** The array loop, entered at the first character of an element. *)
with scan_elements (fuel depth : nat) (s : string) (acc : list pyval)
       {struct fuel} : scan pyval :=
  match fuel with
  | O => Beyond
  | S fuel' =>
      match scan_value fuel' depth s with
      | Got v r =>
          match skip_ws r with
          | String k r' =>
              if (N_of_ascii k =? 93)%N then Got (PyList (rev (v :: acc))) r'
              else if (N_of_ascii k =? 44)%N
              then scan_elements fuel' depth (skip_ws r') (v :: acc)
              else Bad
          | EmptyString => Bad
          end
      | Bad => Bad
      | Beyond => Beyond
      end
  end

(** The object loop, entered after the opening quote of a key. *)
with scan_members (fuel depth : nat) (s : string)
       (acc : list (string * pyval)) {struct fuel} : scan pyval :=
  match fuel with
  | O => Beyond
  | S fuel' =>
      match scan_string None s with
      | Got key r =>
          match skip_ws r with
          | String colon r1 =>
              if (N_of_ascii colon =? 58)%N then
                match scan_value fuel' depth (skip_ws r1) with
                | Got v r2 =>
                    let acc' := dict_set key v acc in
                    match skip_ws r2 with
                    | String k r3 =>
                        if (N_of_ascii k =? 125)%N then Got (PyDict acc') r3
                        else if (N_of_ascii k =? 44)%N then
                          match skip_ws r3 with
                          | String q r4 =>
                              if (N_of_ascii q =? 34)%N
                              then scan_members fuel' depth r4 acc'
                              else Bad
                          | EmptyString => Bad
                          end
                        else Bad
                    | EmptyString => Bad
                    end
                | Bad => Bad
                | Beyond => Beyond
                end
              else Bad
          | EmptyString => Bad
          end
      | Bad => Bad
      | Beyond => Beyond
      end
  end.

(** [json.loads]: one value between optional whitespace, nothing after. *)
Definition loads (s : string) : decoded :=
  match scan_value (2 * String.length s + 2) max_depth (skip_ws s) with
  | Got v rest =>
      match skip_ws rest with
      | EmptyString => Value v
      | String _ _ => Malformed
      end
  | Bad => Malformed
  | Beyond => Unsupported
  end.

End Json.

(** ** The [requests] library, as the script sees it *)

Module Requests.
Import Py.

(** An exception object: the names of its class and of the classes it
    inherits from ([type(e).__mro__], which is what an [except] clause
    tests) and [str(e)], which is text (it holds no lone surrogate). *)
Record exc : Type := {
  exc_mro : list string;
  exc_str : string;
  exc_text : Text.encodable exc_str = true
}.

Definition isinstance (e : exc) (cls : string) : bool :=
  existsb (String.eqb cls) (exc_mro e).

Definition Timeout : string := "requests.exceptions.Timeout".
Definition RequestException : string := "requests.exceptions.RequestException".

(** The arguments of one call of [requests.request]. *)
Record request : Type := {
  method : string;
  req_url : string;
  req_headers : list (string * string);
  req_data : string;
  req_timeout : Z
}.

(** A response object.  [json] is what the method [response.json()]
    does on it: the decoded body, or the exception it raises. *)
Record response : Type := {
  status_code : Z;
  text : string;
  json : exc + pyval
}.

(** What a call of [requests.post] does: raise, or return a response. *)
Definition answer : Type := (exc + response)%type.


(** [json] agrees with the decoder model on the body text, where the
    model has an answer. *)
Definition consistent (r : response) : Prop :=
  match Json.loads (text r) with
  | Json.Value v => json r = inr v
  | Json.Malformed => exists e, json r = inl e
  | Json.Unsupported => True
  end.

(** Exception classes of the library and of the interpreter, by their
    resolution order. *)
Definition builtin_tail : list string := ["Exception"; "BaseException"; "object"].

Definition ReadTimeout (msg : string) (ok : Text.encodable msg = true) : exc :=
  {| exc_mro := "requests.exceptions.ReadTimeout" :: Timeout
                  :: RequestException :: "OSError" :: builtin_tail;
     exc_str := msg; exc_text := ok |}.

Definition ConnectTimeout (msg : string) (ok : Text.encodable msg = true) : exc :=
  {| exc_mro := "requests.exceptions.ConnectTimeout"
                  :: "requests.exceptions.ConnectionError" :: Timeout
                  :: RequestException :: "OSError" :: builtin_tail;
     exc_str := msg; exc_text := ok |}.

Definition ConnectionError (msg : string) (ok : Text.encodable msg = true) : exc :=
  {| exc_mro := "requests.exceptions.ConnectionError"
                  :: RequestException :: "OSError" :: builtin_tail;
     exc_str := msg; exc_text := ok |}.

(** Raised when the redirects of one call exceed the session's limit. *)
Definition TooManyRedirects : exc :=
  {| exc_mro := "requests.exceptions.TooManyRedirects"
                  :: RequestException :: "OSError" :: builtin_tail;
     exc_str := "Exceeded 30 redirects."; exc_text := eq_refl |}.

(** What [response.json()] raises on a malformed body since requests
    2.27: a subclass of both [RequestException] and the decoder's error. *)
Definition JSONDecodeError (msg : string) (ok : Text.encodable msg = true) : exc :=
  {| exc_mro := "requests.exceptions.JSONDecodeError"
                  :: "requests.exceptions.InvalidJSONError"
                  :: RequestException :: "OSError"
                  :: "json.decoder.JSONDecodeError" :: "ValueError"
                  :: builtin_tail;
     exc_str := msg; exc_text := ok |}.

(** What it raised before: the decoder's own error, a [ValueError]. *)
Definition json_JSONDecodeError (msg : string) (ok : Text.encodable msg = true)
  : exc :=
  {| exc_mro := "json.decoder.JSONDecodeError" :: "ValueError" :: builtin_tail;
     exc_str := msg; exc_text := ok |}.

(** *** What writing to standard output raises

    Standard output is a UTF-8 text stream in strict mode.  Writing text
    that holds a lone surrogate raises [UnicodeEncodeError] before any
    byte is written; the message names the first run of surrogates by
    its position, counted in characters. *)

Fixpoint surrogate_run (cps : list N) : nat :=
  match cps with
  | c :: rest => if Text.is_surrogate c then S (surrogate_run rest) else O
  | [] => O
  end.

(** Position, code point and length of the first run of surrogates. *)
Fixpoint first_surrogates (cps : list N) (i : nat) : option (nat * N * nat) :=
  match cps with
  | [] => None
  | c :: rest =>
      if Text.is_surrogate c then Some (i, c, S (surrogate_run rest))
      else first_surrogates rest (S i)
  end.

Definition decimal (n : nat) : string := Text.of_Z (Z.of_nat n).

Definition encode_error_message (line : string) : string :=
  match first_surrogates
          (Text.code_points (map N_of_ascii (list_ascii_of_string line))) 0 with
  | None => ""
  | Some (i, c, 1%nat) =>
      "'utf-8' codec can't encode character '" ++ Text.backslash ++ "u"
        ++ Text.hex 4 c ++ "' in position " ++ decimal i
        ++ ": surrogates not allowed"
  | Some (i, _, k) =>
      "'utf-8' codec can't encode characters in position " ++ decimal i
        ++ "-" ++ decimal (i + k - 1) ++ ": surrogates not allowed"
  end.

Definition UnicodeEncodeError_mro : list string :=
  "UnicodeEncodeError" :: "UnicodeError" :: "ValueError" :: builtin_tail.

(** The message is ASCII whatever the line ([UnicodeEncodeError_str]
    below), so the second branch is never taken. *)
Definition UnicodeEncodeError (line : string) : exc :=
  match bool_dec (Text.encodable (encode_error_message line)) true with
  | left ok =>
      {| exc_mro := UnicodeEncodeError_mro;
         exc_str := encode_error_message line; exc_text := ok |}
  | right _ =>
      {| exc_mro := UnicodeEncodeError_mro; exc_str := ""; exc_text := eq_refl |}
  end.

End Requests.

(** ** Commands, exceptions and handlers *)

Module IO.
Import Py Requests.

(** A computation: it returns, raises, prints a line and goes on, or
    calls [requests.request] and goes on with the library's answer. *)
Inductive io (A : Type) : Type :=
| Ret (a : A)
| Raise (e : exc)
| Print (line : string) (k : io A)
| Post (rq : request) (k : answer -> io A).
Arguments Ret {A} a.
Arguments Raise {A} e.
Arguments Print {A} line k.
Arguments Post {A} rq k.

Fixpoint io_bind {A B : Type} (m : io A) (f : A -> io B) : io B :=
  match m with
  | Ret a => f a
  | Raise e => Raise e
  | Print line k => Print line (io_bind k f)
  | Post rq k => Post rq (fun a => io_bind (k a) f)
  end.

Fixpoint io_catch {A : Type} (m : io A) (h : exc -> io A) : io A :=
  match m with
  | Ret a => Ret a
  | Raise e => h e
  | Print line k => Print line (io_catch k h)
  | Post rq k => Post rq (fun a => io_catch (k a) h)
  end.

#[export] Instance Monad_io : Monad io :=
  {| ret := @Ret; bind := @io_bind |}.

#[export] Instance MonadExc_io : MonadExc exc io :=
  {| raise := @Raise; catch := @io_catch |}.

(** One [except cls as e: body] clause. *)
Definition clause (A : Type) : Type := (string * (exc -> io A))%type.

(** The clauses are tried in order; the first whose class the exception
    is an instance of runs; with none, the exception propagates. *)
Fixpoint dispatch {A : Type} (clauses : list (clause A)) (e : exc) : io A :=
  match clauses with
  | [] => raise e
  | (cls, h) :: rest => if isinstance e cls then h e else dispatch rest e
  end.

Definition try_except {A : Type} (body : io A) (clauses : list (clause A)) : io A :=
  catch body (dispatch clauses).

(** [requests.post(url, headers=..., data=..., timeout=...)] *)
Definition requests_post (url : string) (headers : list (string * string))
    (data : string) (timeout : Z) : io response :=
  Post {| method := "POST"; req_url := url; req_headers := headers;
          req_data := data; req_timeout := timeout |}
       (fun a => match a with
                 | inl e => raise e
                 | inr r => ret r
                 end).

(** [response.json()] *)
Definition response_json (r : response) : io pyval :=
  match json r with
  | inl e => raise e
  | inr v => ret v
  end.

(** [print(v)]: one line, [str(v)], when standard output can encode it;
    otherwise nothing is written and [UnicodeEncodeError] is raised. *)
Definition print (v : pyval) : io unit :=
  if Text.encodable (Py.str v) then Print (Py.str v) (ret tt)
  else raise (UnicodeEncodeError (Py.str v)).

(** *** Running a computation in a world *)

(** The world answers the [n]-th call of the library (counted from 0). *)
Definition world : Type := nat -> request -> answer.

Inductive event : Type :=
| EvPost (rq : request)
| EvPrint (line : string).

(** How the process ends: it falls off the end of the script, or dies
    on an exception nothing caught. *)
Inductive ending : Type :=
| Finished
| Uncaught (e : exc).

Record outcome : Type := { trace : list event; final : ending }.

Fixpoint exec (w : world) (n : nat) (m : io unit) : outcome :=
  match m with
  | Ret _ => {| trace := []; final := Finished |}
  | Raise e => {| trace := []; final := Uncaught e |}
  | Print line k =>
      let o := exec w n k in
      {| trace := EvPrint line :: trace o; final := final o |}
  | Post rq k =>
      let o := exec w (S n) (k (w n rq)) in
      {| trace := EvPost rq :: trace o; final := final o |}
  end.

Fixpoint requests_sent (t : list event) : list request :=
  match t with
  | [] => []
  | EvPost rq :: rest => rq :: requests_sent rest
  | EvPrint _ :: rest => requests_sent rest
  end.

Fixpoint printed (t : list event) : list string :=
  match t with
  | [] => []
  | EvPost _ :: rest => printed rest
  | EvPrint line :: rest => line :: printed rest
  end.

(** The bytes written to standard output: each line and a newline. *)
Definition stdout (t : list event) : string :=
  String.concat "" (map (fun l => l ++ String (ascii_of_nat 10) "") (printed t)).

End IO.

(** ** What one call puts on the wire

    [requests.post] is one call for the script; the library turns it
    into HTTP exchanges.  It sends the request, follows redirects itself
    (at most 30 for a call) and applies the timeout to each wait on the
    socket, not to the call as a whole.  Times are in milliseconds. *)

Module Wire.
Import Py Requests IO.

(** One HTTP request, as far as the caller's arguments decide it. *)
Record message : Type := {
  msg_method : string;
  msg_url : string;
  msg_headers : list (string * string);
  msg_body : option string
}.

Inductive redirect : Type :=
| Moved301
| Found302
| SeeOther303
| Temporary307
| Permanent308.

(** What becomes of one request: no connection is made (nothing is
    sent); the exchange breaks after the request is sent; a redirect
    comes back, with the URL its [Location] resolves to; or any other
    response does. *)
Inductive arrival : Type :=
| Refused (e : exc)
| Broken (e : exc)
| Redirect (k : redirect) (target : string)
| Reply (r : response).

(** One exchange: how long the client waits to connect, how long each
    wait for a piece of the response head and of the body lasts, what
    arrives, and the text the library puts in the exception it raises
    when a wait is too long. *)
Record exchange : Type := {
  connect_ms : Z;
  head_ms : list Z;
  body_ms : list Z;
  arrives : arrival;
  detail : string;
  detail_text : Text.encodable detail = true
}.

(** The server and the network: the exchange the [n]-th request of a
    call meets. *)
Definition server : Type := nat -> message -> exchange.

Definition first_message (rq : request) : message :=
  {| msg_method := method rq; msg_url := req_url rq;
     msg_headers := req_headers rq; msg_body := Some (req_data rq) |}.

(** [SessionRedirectMixin.rebuild_method] *)
Definition rebuild_method (k : redirect) (m : string) : string :=
  match k with
  | SeeOther303 | Found302 => if String.eqb m "HEAD" then m else "GET"
  | Moved301 => if String.eqb m "POST" then "GET" else m
  | Temporary307 | Permanent308 => m
  end.

Definition keeps_body (k : redirect) : bool :=
  match k with
  | Temporary307 | Permanent308 => true
  | _ => false
  end.

Definition purged (name : string) : bool :=
  existsb (Text.same_name name)
          ["Content-Length"; "Content-Type"; "Transfer-Encoding"].

(** The request that follows a redirect: to the target, with the
    rebuilt method; unless the status is 307 or 308 the body and the
    headers that describe it are dropped. *)
Definition next_message (k : redirect) (target : string) (m : message) : message :=
  if keeps_body k then
    {| msg_method := rebuild_method k (msg_method m); msg_url := target;
       msg_headers := msg_headers m; msg_body := msg_body m |}
  else
    {| msg_method := rebuild_method k (msg_method m); msg_url := target;
       msg_headers := filter (fun h => negb (purged (fst h))) (msg_headers m);
       msg_body := None |}.

(** A wait that lasts as long as the limit never ends for the client. *)
Definition stalled (limit : Z) (waits : list Z) : bool :=
  existsb (fun t => (limit <=? t)%Z) waits.

(** The requests sent, in order, and what the call does in the end.
    [fuel] is the number of redirects still allowed.  A connection that
    takes too long raises [ConnectTimeout] and a wait for the response
    head that does [ReadTimeout], both of class [Timeout]; a wait that
    takes too long while the body is read is raised by the library as a
    [ConnectionError]. *)
Fixpoint send (fuel : nat) (srv : server) (limit : Z) (n : nat) (m : message)
  : list message * answer :=
  let x := srv n m in
  if (limit <=? connect_ms x)%Z
  then ([], inl (ConnectTimeout (detail x) (detail_text x)))
  else
    match arrives x with
    | Refused e => ([], inl e)
    | Broken e =>
        if stalled limit (head_ms x)
        then ([m], inl (ReadTimeout (detail x) (detail_text x)))
        else if stalled limit (body_ms x)
        then ([m], inl (ConnectionError (detail x) (detail_text x)))
        else ([m], inl e)
    | Reply r =>
        if stalled limit (head_ms x)
        then ([m], inl (ReadTimeout (detail x) (detail_text x)))
        else if stalled limit (body_ms x)
        then ([m], inl (ConnectionError (detail x) (detail_text x)))
        else ([m], inr r)
    | Redirect k target =>
        if stalled limit (head_ms x)
        then ([m], inl (ReadTimeout (detail x) (detail_text x)))
        else if stalled limit (body_ms x)
        then ([m], inl (ConnectionError (detail x) (detail_text x)))
        else
          match fuel with
          | O => ([m], inl TooManyRedirects)
          | S fuel' =>
              let (ms, a) := send fuel' srv limit (S n) (next_message k target m) in
              (m :: ms, a)
          end
    end.

Definition max_redirects : nat := 30.

(** One call of [requests.request]: the timeout is in seconds. *)
Definition call (srv : server) (rq : request) : list message * answer :=
  send max_redirects srv (1000 * req_timeout rq) 0 (first_message rq).

(** The world a server makes for the script. *)
Definition served_by (srv : server) : world := fun _ rq => snd (call srv rq).

(** The requests that the calls of a run put on the wire. *)
Definition on_the_wire (srv : server) (t : list event) : list message :=
  flat_map (fun rq => fst (call srv rq)) (requests_sent t).

Fixpoint total (waits : list Z) : Z :=
  match waits with
  | [] => 0
  | t :: rest => t + total rest
  end.

(** How long an exchange that runs to its end takes. *)
Definition round_trip (x : exchange) : Z :=
  connect_ms x + total (head_ms x) + total (body_ms x).

End Wire.

(** ** The script *)

Module GetProblem.
Import Py Requests IO.

Definition url : string := "http://162.105.151.213:2000/api/problem/getProblem".

Definition headers : list (string * string) :=
  [("Content-Type", "application/json")].

Definition data : pyval :=
  PyDict [
    ("displayId", PyInt 1002);
    ("discussionCount", PyBool true);
    ("judgeInfo", PyBool true);
    ("judgeInfoToBePreprocessed", PyBool true);
    ("lastSubmissionAndLastAcceptedSubmission", PyBool true);
    ("localizedContentsOfLocale", PyStr "zh_CN");
    ("permissionOfCurrentUser", PyBool true);
    ("samples", PyBool true);
    ("statistics", PyBool true);
    ("tagsOfLocale", PyStr "zh_CN")
  ].

Definition timeout_message : string := "请求超时".
Definition error_prefix : string := "请求错误: ".

(** The two [except] clauses, in the order the script lists them. *)
Definition handlers : list (clause unit) :=
  [ (Timeout, fun _ => print (PyStr timeout_message));
    (RequestException, fun e => print (PyStr (error_prefix ++ exc_str e))) ].

Definition main : io unit :=
  try_except
    (response <- requests_post url headers (Json.dumps data) 10 ;;
     v <- response_json response ;;
     print v)
    handlers.

Definition run (w : world) : outcome := exec w 0 main.

End GetProblem.

(** ** What the script is checked against *)

Module Scenario.
Import Py Requests IO GetProblem.

(** The call the script makes: the arguments it passes to [requests.post]. *)
Definition the_request : request :=
  {| method := "POST"; req_url := url; req_headers := headers;
     req_data := Json.dumps data; req_timeout := 10 |}.

(** What the two [except] clauses make of an exception raised in the
    [try] block, after the one call. *)
Definition after_raise (e : exc) : outcome :=
  if isinstance e Timeout then
    {| trace := [EvPost the_request; EvPrint timeout_message];
       final := Finished |}
  else if isinstance e RequestException then
    {| trace := [EvPost the_request; EvPrint (error_prefix ++ exc_str e)];
       final := Finished |}
  else {| trace := [EvPost the_request]; final := Uncaught e |}.

(** What becomes of a value that [response.json()] returns: it is
    printed, unless standard output cannot encode its text; then
    [print] raises inside the [try] block, neither clause matches, and
    the process dies having printed nothing. *)
Definition after_return (v : pyval) : outcome :=
  if Text.encodable (Py.str v) then
    {| trace := [EvPost the_request; EvPrint (Py.str v)]; final := Finished |}
  else
    {| trace := [EvPost the_request];
       final := Uncaught (UnicodeEncodeError (Py.str v)) |}.

(** The payload as section 3 of the specification tabulates it. *)
Definition payload_in_spec : list (string * pyval) :=
  [ ("displayId", PyInt 1002);
    ("discussionCount", PyBool true);
    ("judgeInfo", PyBool true);
    ("judgeInfoToBePreprocessed", PyBool true);
    ("lastSubmissionAndLastAcceptedSubmission", PyBool true);
    ("localizedContentsOfLocale", PyStr "zh_CN");
    ("permissionOfCurrentUser", PyBool true);
    ("samples", PyBool true);
    ("statistics", PyBool true);
    ("tagsOfLocale", PyStr "zh_CN") ].

(** A world whose library always gives the same answer. *)
Definition answering (a : answer) : world := fun _ _ => a.

Definition quoted (s : string) : string := Text.dquote ++ s ++ Text.dquote.

(** The body of the specification's scenario:
    [{"displayId":1002,"title":"Example"}] *)
Definition example_body : string :=
  "{" ++ quoted "displayId" ++ ":1002," ++ quoted "title" ++ ":"
      ++ quoted "Example" ++ "}".

Definition example_value : pyval :=
  PyDict [("displayId", PyInt 1002); ("title", PyStr "Example")].

Definition example_response : response :=
  {| status_code := 200; text := example_body; json := inr example_value |}.





(** A body that is one string holding a lone surrogate: ["\ud800"] *)
Definition surrogate_body : string := quoted (Text.backslash ++ "ud800").

Definition surrogate_value : pyval := PyStr (Text.utf8 55296).

Definition surrogate_response : response :=
  {| status_code := 200; text := surrogate_body; json := inr surrogate_value |}.

Definition read_timeout : exc :=
  ReadTimeout "HTTPConnectionPool(host='162.105.151.213', port=2000): Read timed out. (read timeout=10)" eq_refl.

Definition connection_refused : exc :=
  ConnectionError "HTTPConnectionPool(host='162.105.151.213', port=2000): Max retries exceeded with url: /api/problem/getProblem" eq_refl.

Definition expecting_value : string :=
  "Expecting value: line 1 column 1 (char 0)".

(** A 200 response with an HTML body, under requests 2.27 or later and
    under an earlier release. *)
Definition html_response : response :=
  {| status_code := 200; text := "<html>";
     json := inl (JSONDecodeError expecting_value eq_refl) |}.

Definition html_response_before_2_27 : response :=
  {| status_code := 200; text := "<html>";
     json := inl (json_JSONDecodeError expecting_value eq_refl) |}.

(** An exception outside the library's hierarchy. *)
Definition keyboard_interrupt : exc :=
  {| exc_mro := ["KeyboardInterrupt"; "BaseException"; "object"];
     exc_str := ""; exc_text := eq_refl |}.

(** What the script can see of an answer: the exception raised, or what
    [response.json()] does on the response returned. *)
Definition observed (a : answer) : exc + (exc + pyval) :=
  match a with
  | inl e => inl e
  | inr r => inr (json r)
  end.

(** A server error page that carries the example document, in a world
    whose later calls would all time out. *)
Definition server_error_response : response :=
  {| status_code := 500; text := "  " ++ example_body;
     json := inr example_value |}.

Definition then_timeouts (a : answer) : world :=
  fun n _ => match n with
             | O => a
             | S _ => inl read_timeout
             end.

(** A 200 response whose body is the timeout message as a JSON string. *)
Definition echo_response : response :=
  {| status_code := 200; text := quoted timeout_message;
     json := inr (PyStr timeout_message) |}.

(** *** Servers *)

(** The first request the library sends for the script's call. *)
Definition first_sent : Wire.message := Wire.first_message the_request.

(** The limit the library applies to each wait, in milliseconds. *)
Definition limit_ms : Z := 1000 * req_timeout the_request.

(** An exchange without delays to speak of. *)
Definition prompt (a : Wire.arrival) : Wire.exchange :=
  {| Wire.connect_ms := 20; Wire.head_ms := [30%Z]; Wire.body_ms := [10%Z];
     Wire.arrives := a;
     Wire.detail := "HTTPConnectionPool(host='162.105.151.213', port=2000): Read timed out.";
     Wire.detail_text := eq_refl |}.

(** A server that takes eight seconds to start answering and eight more
    to send the body: sixteen seconds and more for the round trip, and
    no wait as long as ten. *)
Definition slow_exchange : Wire.exchange :=
  {| Wire.connect_ms := 100; Wire.head_ms := [8000%Z]; Wire.body_ms := [8000%Z];
     Wire.arrives := Wire.Reply example_response;
     Wire.detail := "HTTPConnectionPool(host='162.105.151.213', port=2000): Read timed out.";
     Wire.detail_text := eq_refl |}.

Definition slow_server : Wire.server := fun _ _ => slow_exchange.

(** A server that answers the first request with a redirect and the
    next with the example document. *)
Definition redirecting (k : Wire.redirect) (target : string) : Wire.server :=
  fun n _ =>
    match n with
    | O => prompt (Wire.Redirect k target)
    | S _ => prompt (Wire.Reply example_response)
    end.

Definition elsewhere : string := "http://162.105.151.213:2000/other".

(** A server that redirects every request to the URL it came to. *)
Definition looping : Wire.server :=
  fun _ m => prompt (Wire.Redirect Wire.Temporary307 (Wire.msg_url m)).


(** A server that answers at once with the example document. *)
Definition prompt_server : Wire.server :=
  fun _ _ => prompt (Wire.Reply example_response).

(** A server the connection to which takes eleven seconds. *)
Definition far_server : Wire.server :=
  fun _ _ =>
    {| Wire.connect_ms := 11000; Wire.head_ms := [30%Z]; Wire.body_ms := [10%Z];
       Wire.arrives := Wire.Reply example_response;
       Wire.detail := "HTTPConnectionPool(host='162.105.151.213', port=2000): Max retries exceeded with url: /api/problem/getProblem";
       Wire.detail_text := eq_refl |}.

(** A server nobody listens on. *)
Definition closed_port : Wire.server :=
  fun _ _ => prompt (Wire.Refused connection_refused).

End Scenario.

Import Py Requests IO GetProblem Scenario.

(** ** Properties *)




(** The line of the generic clause is text, because [str(e)] is. *)
Lemma error_line_encodable (e : exc) :
  Text.encodable (error_prefix ++ exc_str e) = true.
Proof.
  unfold error_prefix. pose proof (exc_text e) as H.
  destruct (exc_str e) as [|c s]; [reflexivity|].
  cbn. exact H.
Qed.

Lemma UnicodeEncodeError_mro_eq (line : string) :
  exc_mro (UnicodeEncodeError line) = UnicodeEncodeError_mro.
Proof.
  unfold UnicodeEncodeError.
  destruct (bool_dec (Text.encodable (encode_error_message line)) true);
    reflexivity.
Qed.

Lemma UnicodeEncodeError_no_clause (line : string) :
  isinstance (UnicodeEncodeError line) Timeout = false
  /\ isinstance (UnicodeEncodeError line) RequestException = false.
Proof.
  unfold isinstance. rewrite UnicodeEncodeError_mro_eq. split; reflexivity.
Qed.

(** The script, step by step: one call; then the decoded value goes to
    [print], or the exception goes through the two clauses. *)
Lemma run_cases (w : world) :
  run w =
  match w 0%nat the_request with
  | inl e => after_raise e
  | inr r =>
      match json r with
      | inl e => after_raise e
      | inr v => after_return v
      end
  end.
Proof.
  assert (Hraise : forall e,
    exec w 1 (dispatch handlers e)
    = {| trace := match trace (after_raise e) with
                  | _ :: t => t
                  | [] => []
                  end;
         final := final (after_raise e) |}).
  { intros e. unfold handlers, after_raise. cbn [dispatch].
    destruct (isinstance e Timeout); [reflexivity|].
    destruct (isinstance e RequestException); [|reflexivity].
    unfold print. cbn [Py.str]. rewrite error_line_encodable. reflexivity. }
  assert (Hshape : forall e,
    trace (after_raise e)
    = EvPost the_request :: match trace (after_raise e) with
                            | _ :: t => t
                            | [] => []
                            end).
  { intros e. unfold after_raise.
    destruct (isinstance e Timeout); [reflexivity|].
    destruct (isinstance e RequestException); reflexivity. }
  unfold run, main, try_except, requests_post, response_json.
  cbn [bind catch Monad_io MonadExc_io io_bind io_catch exec].
  change {| method := "POST"; req_url := url; req_headers := headers;
            req_data := Json.dumps data; req_timeout := 10 |} with the_request.
  destruct (w 0%nat the_request) as [e|r].
  - cbn [raise MonadExc_io io_bind io_catch].
    rewrite Hraise. cbn [trace final]. rewrite <- Hshape.
    now destruct (after_raise e).
  - cbn [ret Monad_io io_bind io_catch].
    destruct (json r) as [e|v].
    + cbn [raise MonadExc_io io_bind io_catch].
      rewrite Hraise. cbn [trace final]. rewrite <- Hshape.
      now destruct (after_raise e).
    + cbn [ret Monad_io io_bind io_catch]. unfold print, after_return.
      destruct (Text.encodable (Py.str v)); [reflexivity|].
      cbn [raise MonadExc_io io_bind io_catch]. unfold handlers.
      cbn [dispatch].
      destruct (UnicodeEncodeError_no_clause (Py.str v)) as [-> ->].
      reflexivity.
Qed.

(** Whatever the world answers, the trace starts with the one call and
    no other call follows it. *)
Lemma trace_shape (w : world) :
  exists rest,
    trace (run w) = EvPost the_request :: rest /\ requests_sent rest = [].
Proof.
  rewrite run_cases. unfold after_raise, after_return.
  destruct (w 0%nat the_request) as [e|r]; [|destruct (json r) as [e|v]];
    try (destruct (isinstance e Timeout);
         [|destruct (isinstance e RequestException)]);
    try destruct (Text.encodable (Py.str v));
    eexists; split; reflexivity.
Qed.

Lemma sent_once (w : world) : requests_sent (trace (run w)) = [the_request].
Proof.
  destruct (trace_shape w) as [rest [Ht Hr]].
  rewrite Ht. simpl. now rewrite Hr.
Qed.



Lemma html_is_malformed : Json.loads "<html>" = Json.Malformed.
Proof. vm_compute. reflexivity. Qed.



(** *** The message of [UnicodeEncodeError] is ASCII *)








(** *** One call on the wire *)

Lemma wire_of_run (srv : Wire.server) :
  Wire.on_the_wire srv (trace (run (Wire.served_by srv)))
  = fst (Wire.call srv the_request).
Proof.
  unfold Wire.on_the_wire. rewrite sent_once. cbn [flat_map].
  apply app_nil_r.
Qed.

Lemma send_length (srv : Wire.server) (limit : Z) (fuel n : nat)
    (m : Wire.message) :
  (length (fst (Wire.send fuel srv limit n m)) <= S fuel)%nat.
Proof.
  revert n m. induction fuel as [|fuel IH]; intros n m; cbn [Wire.send];
    destruct (limit <=? Wire.connect_ms (srv n m))%Z; cbn; try lia;
    destruct (Wire.arrives (srv n m)); cbn; try lia;
    destruct (Wire.stalled limit (Wire.head_ms (srv n m))); cbn; try lia;
    destruct (Wire.stalled limit (Wire.body_ms (srv n m))); cbn; try lia.
  specialize (IH (S n) (Wire.next_message k target m)).
  destruct (Wire.send fuel srv limit (S n) (Wire.next_message k target m)).
  cbn in *. lia.
Qed.


Lemma send_reply (srv : Wire.server) (limit : Z) (fuel n : nat)
    (m : Wire.message) (r : response) :
  (Wire.connect_ms (srv n m) < limit)%Z ->
  Wire.arrives (srv n m) = Wire.Reply r ->
  length (fst (Wire.send fuel srv limit n m)) = 1%nat
  /\ (Wire.stalled limit (Wire.head_ms (srv n m)) = false ->
      Wire.stalled limit (Wire.body_ms (srv n m)) = false ->
      snd (Wire.send fuel srv limit n m) = inr r).
Proof.
  intros Hc Ha.
  assert (Hl : (limit <=? Wire.connect_ms (srv n m))%Z = false)
    by (apply Z.leb_gt; exact Hc).
  destruct fuel; cbn [Wire.send]; rewrite Hl, Ha;
    destruct (Wire.stalled limit (Wire.head_ms (srv n m)));
    destruct (Wire.stalled limit (Wire.body_ms (srv n m)));
    split; try reflexivity; intros; try discriminate; reflexivity.
Qed.

Lemma send_connect_timeout (srv : Wire.server) (limit : Z) (fuel n : nat)
    (m : Wire.message) :
  (limit <= Wire.connect_ms (srv n m))%Z ->
  exists e, Wire.send fuel srv limit n m = ([], inl e)
            /\ isinstance e Timeout = true.
Proof.
  intros Hc. apply Z.leb_le in Hc.
  destruct fuel; cbn [Wire.send]; rewrite Hc; eexists; split; reflexivity.
Qed.




(** C1. The body of the request the script sends, decoded as JSON, is
    the ten-key payload of the specification's data model, key for key
    and value for value, whatever the world does. *)
Theorem request_body_is_the_payload (w : world) :
  exists body,
    map req_data (requests_sent (trace (run w))) = [body]
    /\ Json.loads body = Json.Value (PyDict payload_in_spec)
    /\ Py.keys payload_in_spec =
         ["displayId"; "discussionCount"; "judgeInfo";
          "judgeInfoToBePreprocessed";
          "lastSubmissionAndLastAcceptedSubmission";
          "localizedContentsOfLocale"; "permissionOfCurrentUser";
          "samples"; "statistics"; "tagsOfLocale"]
    /\ length payload_in_spec = 10%nat.
Proof.
  exists (req_data the_request). rewrite sent_once.
  split; [reflexivity|]. split; [vm_compute; reflexivity|].
  split; reflexivity.
Qed.




(** What the script does at that input. *)
Lemma surrogate_response_run :
  trace (run (answering (inr surrogate_response))) = [EvPost the_request]
  /\ exists e,
       final (run (answering (inr surrogate_response))) = Uncaught e
       /\ exc_mro e = ["UnicodeEncodeError"; "UnicodeError"; "ValueError";
                       "Exception"; "BaseException"; "object"]
       /\ exc_str e = "'utf-8' codec can't encode character '\ud800' in position 0: surrogates not allowed".
Proof.
  rewrite run_cases. split; [reflexivity|].
  eexists. split; [reflexivity|]. split; reflexivity.
Qed.




(** What the script does at that input. *)
Lemma slow_server_run :
  Wire.round_trip (slow_server 0%nat first_sent) = 16100%Z
  /\ run (Wire.served_by slow_server)
     = {| trace := [EvPost the_request;
                    EvPrint "{'displayId': 1002, 'title': 'Example'}"];
          final := Finished |}.
Proof. split; [reflexivity|]. rewrite run_cases. vm_compute. reflexivity. Qed.





(** What goes on the wire at that input. *)
Lemma found_redirect_wire :
  Wire.on_the_wire (redirecting Wire.Found302 elsewhere)
    (trace (run (Wire.served_by (redirecting Wire.Found302 elsewhere))))
  = [ first_sent;
      {| Wire.msg_method := "GET";
         Wire.msg_url := "http://162.105.151.213:2000/other";
         Wire.msg_headers := []; Wire.msg_body := None |} ].
Proof. rewrite wire_of_run. vm_compute. reflexivity. Qed.

(** C6, as amended.  The timeout the script passes to its call is
    exactly 10 (seconds).  The library applies it to each wait on the
    socket: a call whose connection and whose every wait for data take
    less than that returns the response, however long the round trip;
    a connection that takes as long raises a timeout. *)
Theorem timeout_is_ten (w : world) (srv : Wire.server) :
  (exists rq,
     requests_sent (trace (run w)) = [rq] /\ req_timeout rq = 10%Z)
  /\ limit_ms = 10000%Z
  /\ (forall r,
        (Wire.connect_ms (srv 0%nat first_sent) < limit_ms)%Z ->
        Wire.stalled limit_ms (Wire.head_ms (srv 0%nat first_sent)) = false ->
        Wire.stalled limit_ms (Wire.body_ms (srv 0%nat first_sent)) = false ->
        Wire.arrives (srv 0%nat first_sent) = Wire.Reply r ->
        Wire.served_by srv 0%nat the_request = inr r)
  /\ ((limit_ms <= Wire.connect_ms (srv 0%nat first_sent))%Z ->
      exists e, Wire.served_by srv 0%nat the_request = inl e
                /\ isinstance e Timeout = true).
Proof.
  split; [|split; [|split]].
  - exists the_request. rewrite sent_once. split; reflexivity.
  - reflexivity.
  - intros r Hc Hh Hb Ha. unfold Wire.served_by, Wire.call.
    exact (proj2 (send_reply srv limit_ms Wire.max_redirects 0 first_sent r
                    Hc Ha) Hh Hb).
  - intros Hc. unfold Wire.served_by, Wire.call.
    destruct (send_connect_timeout srv limit_ms Wire.max_redirects 0
                first_sent Hc) as [e [He Ht]].
    exists e. split; [|exact Ht].
    change (1000 * req_timeout the_request)%Z with limit_ms.
    change (Wire.first_message the_request) with first_sent.
    now rewrite He.
Qed.

Lemma timeout_is_ten_witness :
  (Wire.connect_ms (slow_server 0%nat first_sent) < limit_ms)%Z
  /\ Wire.stalled limit_ms (Wire.head_ms (slow_server 0%nat first_sent)) = false
  /\ Wire.stalled limit_ms (Wire.body_ms (slow_server 0%nat first_sent)) = false
  /\ Wire.arrives (slow_server 0%nat first_sent) = Wire.Reply example_response
  /\ Wire.round_trip (slow_server 0%nat first_sent) = 16100%Z
  /\ Wire.served_by slow_server 0%nat the_request = inr example_response
  /\ (limit_ms <= Wire.connect_ms (far_server 0%nat first_sent))%Z
  /\ exists e, Wire.served_by far_server 0%nat the_request = inl e
               /\ isinstance e Timeout = true.
Proof.
  split; [reflexivity|]. split; [reflexivity|]. split; [reflexivity|].
  split; [reflexivity|]. split; [reflexivity|].
  split.
  - apply (proj1 (proj2 (proj2 (timeout_is_ten
                                  (answering (inr example_response))
                                  slow_server))) example_response);
      reflexivity.
  - split; [discriminate|].
    apply (proj2 (proj2 (proj2 (timeout_is_ten
                                  (answering (inr example_response))
                                  far_server)))).
    discriminate.
Defined.

(** C6 as the specification words it fails: the ten is not a bound on
    the entire round trip.  A round trip of more than sixteen seconds
    with no wait as long as ten raises no timeout. *)
Lemma round_trip_may_exceed_the_timeout :
  ~ (forall srv : Wire.server,
       (limit_ms < Wire.round_trip (srv 0%nat first_sent))%Z ->
       exists e, Wire.served_by srv 0%nat the_request = inl e
                 /\ isinstance e Timeout = true).
Proof.
  intros H. destruct (H slow_server) as [e [He _]].
  - vm_compute. reflexivity.
  - vm_compute in He. discriminate He.
Qed.

(** C7, as amended.  A response whose body does not decode makes
    [response.json()] raise, and the exception meets the same two clauses
    as any other: the script has no clause of its own for it.  When its
    class is a [RequestException] (what requests raises since 2.27) the
    generic clause prints the request-error message and the process ends
    normally; when it is not (the decoder's [ValueError] of earlier
    releases) nothing is printed and the exception is uncaught. *)
Theorem decode_failure_goes_by_class (w : world) (r : response) (e : exc) :
  w 0%nat the_request = inr r ->
  json r = inl e ->
  isinstance e Timeout = false ->
  map fst handlers = [Timeout; RequestException]
  /\ run w =
     if isinstance e RequestException
     then {| trace := [EvPost the_request; EvPrint (error_prefix ++ exc_str e)];
             final := Finished |}
     else {| trace := [EvPost the_request]; final := Uncaught e |}.
Proof.
  intros Hw Hj Ht. split; [reflexivity|].
  rewrite run_cases, Hw, Hj. unfold after_raise. rewrite Ht.
  destruct (isinstance e RequestException); reflexivity.
Qed.

Lemma decode_failure_goes_by_class_witness :
  answering (inr html_response_before_2_27) 0%nat the_request
    = inr html_response_before_2_27
  /\ json html_response_before_2_27
       = inl (json_JSONDecodeError expecting_value eq_refl)
  /\ isinstance (json_JSONDecodeError expecting_value eq_refl) Timeout = false
  /\ map fst handlers = [Timeout; RequestException]
  /\ run (answering (inr html_response_before_2_27))
     = {| trace := [EvPost the_request];
          final := Uncaught (json_JSONDecodeError expecting_value eq_refl) |}.
Proof.
  split; [reflexivity|]. split; [reflexivity|]. split; [reflexivity|].
  apply (decode_failure_goes_by_class
           (answering (inr html_response_before_2_27))
           html_response_before_2_27
           (json_JSONDecodeError expecting_value eq_refl));
    reflexivity.
Defined.

(** C7 as the specification words it fails: a 200 response with the body
    [<html>], which does not decode, under requests 2.27 or later.  The
    exception [response.json()] raises is a [RequestException], the
    generic clause catches it, the request-error message is printed and
    the process ends normally. *)
Lemma decode_failure_is_caught_since_2_27 :
  ~ (forall (w : world) (r : response) (e : exc),
       w 0%nat the_request = inr r ->
       consistent r ->
       Json.loads (text r) = Json.Malformed ->
       json r = inl e ->
       final (run w) = Uncaught e /\ printed (trace (run w)) = []).
Proof.
  intros H.
  destruct (H (answering (inr html_response)) html_response
              (JSONDecodeError expecting_value eq_refl)) as [Hf _].
  - reflexivity.
  - unfold consistent. simpl text. rewrite html_is_malformed.
    eexists. reflexivity.
  - apply html_is_malformed.
  - reflexivity.
  - rewrite run_cases in Hf. discriminate Hf.
Qed.

(** What the script does at that input. *)
Lemma html_response_run :
  run (answering (inr html_response))
  = {| trace := [EvPost the_request;
                 EvPrint "请求错误: Expecting value: line 1 column 1 (char 0)"];
       final := Finished |}.
Proof. rewrite run_cases. reflexivity. Qed.

(** C8, as amended.  In every world the script makes exactly one call
    of [requests.post]: the trace starts with it and no call follows,
    whether the run ends normally or not; the script never retries.  For
    that call the library sends at most 31 HTTP requests (the redirect
    limit is 30; a server that redirects for ever gets all 31), and
    exactly one when the server answers the first with a response that
    is not a redirect. *)
Theorem exactly_one_request (w : world) (srv : Wire.server) :
  length (requests_sent (trace (run w))) = 1%nat
  /\ (exists rest,
        trace (run w) = EvPost the_request :: rest
        /\ requests_sent rest = []
        /\ (length rest <= 1)%nat)
  /\ (length (Wire.on_the_wire srv (trace (run (Wire.served_by srv)))) <= 31)%nat
  /\ length (Wire.on_the_wire looping (trace (run (Wire.served_by looping))))
     = 31%nat
  /\ (forall r,
        (Wire.connect_ms (srv 0%nat first_sent) < limit_ms)%Z ->
        Wire.arrives (srv 0%nat first_sent) = Wire.Reply r ->
        length (Wire.on_the_wire srv (trace (run (Wire.served_by srv)))) = 1%nat).
Proof.
  rewrite sent_once. split; [reflexivity|]. split; [|split; [|split]].
  - rewrite run_cases. unfold after_raise, after_return.
    destruct (w 0%nat the_request) as [e|r]; [|destruct (json r) as [e|v]];
      try (destruct (isinstance e Timeout);
           [|destruct (isinstance e RequestException)]);
      try destruct (Text.encodable (Py.str v));
      eexists; (split; [reflexivity|]); split; try reflexivity; simpl; lia.
  - rewrite wire_of_run. unfold Wire.call.
    apply (send_length srv (1000 * req_timeout the_request) Wire.max_redirects).
  - rewrite wire_of_run. vm_compute. reflexivity.
  - intros r Hc Ha. rewrite wire_of_run. unfold Wire.call.
    exact (proj1 (send_reply srv limit_ms Wire.max_redirects 0 first_sent r
                    Hc Ha)).
Qed.

Lemma exactly_one_request_witness :
  (Wire.connect_ms (prompt_server 0%nat first_sent) < limit_ms)%Z
  /\ Wire.arrives (prompt_server 0%nat first_sent) = Wire.Reply example_response
  /\ length (Wire.on_the_wire prompt_server
               (trace (run (Wire.served_by prompt_server)))) = 1%nat.
Proof.
  split; [reflexivity|]. split; [reflexivity|].
  apply (proj2 (proj2 (proj2 (proj2 (exactly_one_request
                                       (answering (inr example_response))
                                       prompt_server))))
           example_response); reflexivity.
Defined.

(** C8 as the specification words it fails: when the server answers the
    POST with a 307, the library sends the POST again to the new
    address, so the program has sent a second HTTP request. *)
Lemma temporary_redirect_repeats_the_post :
  ~ (forall srv : Wire.server,
       length (Wire.on_the_wire srv (trace (run (Wire.served_by srv)))) = 1%nat).
Proof.
  intros H. specialize (H (redirecting Wire.Temporary307 elsewhere)).
  rewrite wire_of_run in H. vm_compute in H. discriminate H.
Qed.

(** What goes on the wire at that input, and at a server that redirects
    for ever: 31 requests, then the call raises [TooManyRedirects] and the
    script prints the request-error line. *)
Lemma redirect_runs :
  Wire.on_the_wire (redirecting Wire.Temporary307 elsewhere)
    (trace (run (Wire.served_by (redirecting Wire.Temporary307 elsewhere))))
  = [ first_sent;
      {| Wire.msg_method := "POST"; Wire.msg_url := elsewhere;
         Wire.msg_headers := headers;
         Wire.msg_body := Some (Json.dumps data) |} ]
  /\ length (Wire.on_the_wire looping (trace (run (Wire.served_by looping))))
     = 31%nat
  /\ printed (trace (run (Wire.served_by looping)))
     = ["请求错误: Exceeded 30 redirects."].
Proof.
  rewrite !wire_of_run, !run_cases. vm_compute. repeat split.
Qed.

(** When nothing listens, no HTTP request is sent at all, and the
    script prints the request-error line. *)
Lemma closed_port_run :
  Wire.on_the_wire closed_port (trace (run (Wire.served_by closed_port))) = []
  /\ printed (trace (run (Wire.served_by closed_port)))
     = [error_prefix ++ exc_str connection_refused]
  /\ final (run (Wire.served_by closed_port)) = Finished.
Proof.
  rewrite wire_of_run, !run_cases. vm_compute. repeat split.
Qed.





(** ** Further properties of the script *)

(** X1. An exception raised by the call that is neither a [Timeout] nor a
    [RequestException] meets no clause: nothing is printed and the
    process dies on that exception. *)
Theorem other_exception_propagates (w : world) (e : exc) :
  w 0%nat the_request = inl e ->
  isinstance e Timeout = false ->
  isinstance e RequestException = false ->
  run w = {| trace := [EvPost the_request]; final := Uncaught e |}.
Proof.
  intros Hw Ht Hr. rewrite run_cases, Hw. unfold after_raise.
  now rewrite Ht, Hr.
Qed.

Lemma other_exception_propagates_witness :
  answering (inl keyboard_interrupt) 0%nat the_request = inl keyboard_interrupt
  /\ isinstance keyboard_interrupt Timeout = false
  /\ isinstance keyboard_interrupt RequestException = false
  /\ run (answering (inl keyboard_interrupt))
     = {| trace := [EvPost the_request]; final := Uncaught keyboard_interrupt |}.
Proof.
  split; [reflexivity|]. split; [reflexivity|]. split; [reflexivity|].
  apply (other_exception_propagates (answering (inl keyboard_interrupt))
           keyboard_interrupt); reflexivity.
Defined.

(** X2. Every run either ends normally having printed exactly one line,
    or dies having printed nothing, and then on an exception that is
    neither a [Timeout] nor a [RequestException]: no exception of those
    two classes ever escapes the script. *)
Theorem one_line_or_uncaught (w : world) :
  (final (run w) = Finished
   /\ exists line, printed (trace (run w)) = [line])
  \/ (exists e,
        final (run w) = Uncaught e
        /\ printed (trace (run w)) = []
        /\ isinstance e Timeout = false
        /\ isinstance e RequestException = false).
Proof.
  rewrite run_cases. unfold after_raise, after_return.
  destruct (w 0%nat the_request) as [e|r]; [|destruct (json r) as [e|v]];
    try (destruct (isinstance e Timeout) eqn:Ht;
         [|destruct (isinstance e RequestException) eqn:Hr]);
    try destruct (Text.encodable (Py.str v));
    try (left; split; [reflexivity | eexists; reflexivity]).
  - right. exists e. repeat split; assumption.
  - right. exists e. repeat split; assumption.
  - right. exists (UnicodeEncodeError (Py.str v)).
    destruct (UnicodeEncodeError_no_clause (Py.str v)) as [Ht Hr].
    repeat split; assumption.
Qed.

(** X3. The script reads nothing of the world but the answer to its one
    call, and of a response nothing but what [response.json()] does:
    two worlds that agree on that give the same run, whatever the status
    codes, the body texts and the answers later calls would get. *)
Theorem run_reads_only_the_json_result (w w' : world) :
  observed (w 0%nat the_request) = observed (w' 0%nat the_request) ->
  run w = run w'.
Proof.
  intros H. rewrite !run_cases.
  destruct (w 0%nat the_request) as [e|r], (w' 0%nat the_request) as [e'|r'];
    simpl in H; try discriminate H.
  - now injection H as ->.
  - injection H as H. now rewrite H.
Qed.

Lemma run_reads_only_the_json_result_witness :
  observed (answering (inr example_response) 0%nat the_request)
    = observed (then_timeouts (inr server_error_response) 0%nat the_request)
  /\ run (answering (inr example_response))
     = run (then_timeouts (inr server_error_response)).
Proof.
  split; [reflexivity|].
  apply (run_reads_only_the_json_result
           (answering (inr example_response))
           (then_timeouts (inr server_error_response))).
  reflexivity.
Defined.

(** X4. Standard output and the way the process ends do not tell a
    timeout from a success: a server that answers with the timeout
    message as a JSON string gives the same output as a timed-out call,
    because [print] writes a decoded string without quotes. *)
Theorem timeout_and_success_can_look_alike :
  exists (w1 w2 : world) (r : response) (v : pyval) (e : exc),
    w1 0%nat the_request = inr r
    /\ consistent r
    /\ json r = inr v
    /\ w2 0%nat the_request = inl e
    /\ isinstance e Timeout = true
    /\ stdout (trace (run w1)) = stdout (trace (run w2))
    /\ final (run w1) = final (run w2).
Proof.
  exists (answering (inr echo_response)), (answering (inl read_timeout)),
    echo_response, (PyStr timeout_message), read_timeout.
  split; [reflexivity|]. split; [vm_compute; reflexivity|].
  split; [reflexivity|]. split; [reflexivity|]. split; [reflexivity|].
  rewrite !run_cases. split; reflexivity.
Qed.

(** X5. An exception raised by [response.json()] is handled exactly as
    if the call itself had raised it, both being in the one [try] block:
    the run is the run of a world whose call raises that exception. *)
Theorem json_raise_is_handled_like_post_raise (w : world) (r : response)
    (e : exc) :
  w 0%nat the_request = inr r ->
  json r = inl e ->
  run w = run (answering (inl e)).
Proof.
  intros Hw Hj. rewrite !run_cases, Hw, Hj. reflexivity.
Qed.

Lemma json_raise_is_handled_like_post_raise_witness :
  answering (inr html_response) 0%nat the_request = inr html_response
  /\ json html_response = inl (JSONDecodeError expecting_value eq_refl)
  /\ run (answering (inr html_response))
     = run (answering (inl (JSONDecodeError expecting_value eq_refl))).
Proof.
  split; [reflexivity|]. split; [reflexivity|].
  apply (json_raise_is_handled_like_post_raise
           (answering (inr html_response)) html_response
           (JSONDecodeError expecting_value eq_refl)); reflexivity.
Defined.
